(** * decode-hash.py: prefixes of hash strings read as base-16 integers

    The script walks a fixed list of hash strings and, for each one,
    parses its first 16, 8 and 6 characters with [int(_, 16)] and prints
    the three numbers.  This file embeds the script together with the
    builtins it calls (slicing, [int] with base 16, f-string formatting
    of integers, [print]) and proves the properties stated about it.

    Python strings are sequences of code points; Python integers are
    unbounded, so they are [Z].  Standard output is modelled as the text
    written to it; a write raises when the encoding of standard output
    lacks one of the characters. *)

From Stdlib Require Import String Ascii ZArith NArith List Bool Lia.
From Stdlib Require Import DecimalString.
Import ListNotations.

Local Open Scope Z_scope.

(** ** Strings *)

Definition codepoint := N.
Definition pystr := list codepoint.

(** A string literal of the script. *)
Definition lit (s : string) : pystr :=
  List.map N_of_ascii (list_ascii_of_string s).

(** [h[:n]]: the first [n] characters, or all of [h] when it is shorter. *)
Definition slice_to (h : pystr) (n : nat) : pystr := firstn n h.

(** [str(z)], which is what an f-string field [{z}] expands to. *)
Definition str_int (z : Z) : pystr :=
  lit (NilZero.string_of_int (Z.to_int z)).

(** ** Results and exceptions *)

Inductive exc : Type :=
| ValueError (base : Z) (literal : pystr)
| UnicodeEncodeError (object : pystr).

Inductive result (A : Type) : Type :=
| Ok (a : A)
| Raise (e : exc).
Arguments Ok {A} a.
Arguments Raise {A} e.

(** A program writes to standard output and then returns or raises; what
    was written before an exception stays written. *)
Definition IO (A : Type) : Type := pystr -> pystr * result A.

Class Monad (M : Type -> Type) : Type :=
  { ret : forall {A}, A -> M A;
    bind : forall {A B}, M A -> (A -> M B) -> M B }.

#[global] Instance Monad_result : Monad result :=
  { ret := fun A a => Ok a;
    bind := fun A B c k =>
      match c with
      | Ok a => k a
      | Raise e => Raise e
      end }.

#[global] Instance Monad_IO : Monad IO :=
  { ret := fun A a out => (out, Ok a);
    bind := fun A B c k out =>
      match c out with
      | (out', Ok a) => k a out'
      | (out', Raise e) => (out', Raise e)
      end }.

Notation "x <- c ;; k" := (bind c (fun x => k))
  (at level 61, c at next level, right associativity).
Notation "c ;; k" := (bind c (fun _ => k))
  (at level 61, right associativity).

(** An expression that may raise, evaluated inside a program. *)
Definition lift {A} (r : result A) : IO A := fun out => (out, r).

Definition newline : codepoint := 10%N.

(** ** Standard output

    [sys.stdout] encodes the text written to it.  Which characters its
    encoding has depends on how the interpreter is run, so this is an
    interface. *)

Class Stdout : Type :=
  { can_encode : codepoint -> bool }.

(** UTF-8 with the strict error handler: every code point but the
    surrogates. *)
Definition utf8_strict : Stdout :=
  {| can_encode := fun c => ((c <? 55296) || (57343 <? c))%N |}.

(** ** The Unicode character database

    [int] accepts non-ASCII white space and decimal digits; which code
    points these are depends on the Unicode version of the interpreter,
    so the tables for code points from 127 on are an interface. *)

Class UnicodeDB : Type :=
  { uni_isspace : codepoint -> bool;
    uni_todecimal : codepoint -> option N }.

(** The tables of Unicode 14.0: the white space characters, and the zero
    of each run of ten decimal digits. *)
Definition unicode14_spaces : list N :=
  [133; 160; 5760; 8192; 8193; 8194; 8195; 8196; 8197; 8198; 8199; 8200;
   8201; 8202; 8232; 8233; 8239; 8287; 12288]%N.

Definition unicode14_zeros : list N :=
  [1632; 1776; 1984; 2406; 2534; 2662; 2790; 2918; 3046; 3174; 3302; 3430;
   3558; 3664; 3792; 3872; 4160; 4240; 6112; 6160; 6470; 6608; 6784; 6800;
   6992; 7088; 7232; 7248; 42528; 43216; 43264; 43472; 43504; 43600; 44016;
   65296; 66720; 68912; 69734; 69872; 69942; 70096; 70384; 70736; 70864;
   71248; 71360; 71472; 71904; 72016; 72784; 73040; 73120; 92768; 92864;
   93008; 120782; 120792; 120802; 120812; 120822; 123200; 123632; 125264;
   130032]%N.

Definition unicode14 : UnicodeDB :=
  {| uni_isspace := fun c => existsb (N.eqb c) unicode14_spaces;
     uni_todecimal := fun c =>
       match find (fun z => (z <=? c) && (c <? z + 10))%N unicode14_zeros with
       | Some z => Some (c - z)%N
       | None => None
       end |}.

(** ** ASCII character classes of the integer parser *)

Definition chr_space : codepoint := 32%N.
Definition chr_plus : codepoint := 43%N.
Definition chr_minus : codepoint := 45%N.
Definition chr_0 : codepoint := 48%N.
Definition chr_question : codepoint := 63%N.
Definition chr_X : codepoint := 88%N.
Definition chr_underscore : codepoint := 95%N.
Definition chr_x : codepoint := 120%N.

(** [Py_ISSPACE]: tab, line feed, vertical tab, form feed, carriage
    return and space. *)
Definition Py_ISSPACE (c : codepoint) : bool :=
  ((9 <=? c) && (c <=? 13) || (c =? chr_space))%N.

(** [_PyLong_DigitValue]: 0..9 for the digits, 10..35 for the letters of
    either case, 37 for every other character. *)
Definition PyLong_DigitValue (c : codepoint) : Z :=
  if ((48 <=? c) && (c <=? 57))%N then Z.of_N c - 48
  else if ((97 <=? c) && (c <=? 122))%N then Z.of_N c - 87
  else if ((65 <=? c) && (c <=? 90))%N then Z.of_N c - 55
  else 37.

(** The script only ever parses in base 16, four bits per character. *)
Definition base : Z := 16.
Definition bits_per_char : Z := 4.

Section Decoder.

Context {udb : UnicodeDB} {stdout : Stdout}.

(** ** [print]

    [sys.stdout.write(s)] encodes the whole of [s] before anything of it
    is written: a string with a character the encoding lacks raises
    [UnicodeEncodeError] and writes nothing. *)
Definition write (s : pystr) : IO unit :=
  fun out =>
    if forallb can_encode s then (out ++ s, Ok tt)
    else (out, Raise (UnicodeEncodeError s)).

(** Text all of whose characters the encoding of standard output has. *)
Definition encodable (s : pystr) : Prop :=
  forallb can_encode s = true.

(** The loop of [print] over its arguments: a space before every
    argument but the first, then the argument. *)
Fixpoint write_args (i : nat) (args : list pystr) : IO unit :=
  match args with
  | [] => ret tt
  | a :: args' =>
      (if (0 <? i)%nat then write [32%N] else ret tt) ;;
      write a ;;
      write_args (S i) args'
  end.

(** [print] with any number of arguments: the arguments, then a newline,
    each written on its own. *)
Definition print (args : list pystr) : IO unit :=
  write_args 0 args ;;
  write [newline].

(** ** [int(x, 16)] on a string

    [PyLong_FromUnicodeObject] first rewrites the string to ASCII, then
    hands it to [PyLong_FromString]. *)

Definition is_ascii (u : pystr) : bool :=
  forallb (fun ch => ch <? 128)%N u.

(** The loop of [_PyUnicode_TransformDecimalAndSpaceToASCII]: white space
    becomes a space, a decimal digit its ASCII digit; at any other
    non-ASCII character the result ends with a question mark. *)
Fixpoint transform_loop (u : pystr) : pystr :=
  match u with
  | [] => []
  | ch :: u' =>
      if (ch <? 127)%N then ch :: transform_loop u'
      else if uni_isspace ch then chr_space :: transform_loop u'
      else match uni_todecimal ch with
           | Some decimal => (chr_0 + decimal)%N :: transform_loop u'
           | None => [chr_question]
           end
  end.

(** An ASCII string is returned as it is. *)
Definition TransformDecimalAndSpaceToASCII (u : pystr) : pystr :=
  if is_ascii u then u else transform_loop u.

Fixpoint skip_space (str : pystr) : pystr :=
  match str with
  | c :: str' => if Py_ISSPACE c then skip_space str' else str
  | [] => []
  end.

(** An optional sign. *)
Definition read_sign (str : pystr) : Z * pystr :=
  match str with
  | c :: str' =>
      if (c =? chr_plus)%N then (1, str')
      else if (c =? chr_minus)%N then (-1, str')
      else (1, str)
  | [] => (1, str)
  end.

(** An optional [0x] or [0X], after which one underscore is allowed. *)
Definition skip_prefix (str : pystr) : pystr :=
  match str with
  | c0 :: c1 :: str' =>
      if ((c0 =? chr_0) && ((c1 =? chr_x) || (c1 =? chr_X)))%N then
        match str' with
        | c2 :: str'' => if (c2 =? chr_underscore)%N then str'' else str'
        | [] => str'
        end
      else str
  | _ => str
  end.

Definition starts_with (c : codepoint) (str : pystr) : bool :=
  match str with
  | c' :: _ => (c' =? c)%N
  | [] => false
  end.

(** The scan of [long_from_binary_base]: past all digits below the base
    and all underscores, where two underscores in a row or one at the end
    are a syntax error.  Returns the characters scanned and the rest. *)
Fixpoint scan_digits (prev : codepoint) (p : pystr) : option (pystr * pystr) :=
  match p with
  | c :: p' =>
      if (PyLong_DigitValue c <? base) || (c =? chr_underscore)%N then
        if ((c =? chr_underscore) && (prev =? chr_underscore))%N then None
        else match scan_digits c p' with
             | Some (scanned, rest) => Some (c :: scanned, rest)
             | None => None
             end
      else if (prev =? chr_underscore)%N then None
      else Some ([], p)
  | [] => if (prev =? chr_underscore)%N then None else Some ([], [])
  end.

(** The second loop of [long_from_binary_base] reads the scanned
    characters from the right and ors each digit into the number at the
    next free bit position. *)
Fixpoint fill_from_right (p : pystr) (accum bits_in_accum : Z) : Z :=
  match p with
  | [] => accum
  | c :: p' =>
      if (c =? chr_underscore)%N then fill_from_right p' accum bits_in_accum
      else fill_from_right p'
             (Z.lor accum (Z.shiftl (PyLong_DigitValue c) bits_in_accum))
             (bits_in_accum + bits_per_char)
  end.

Definition long_from_binary_base (str : pystr) : option (Z * pystr) :=
  match scan_digits 0%N str with
  | Some (scanned, rest) => Some (fill_from_right (rev scanned) 0 0, rest)
  | None => None
  end.

(** [PyLong_FromString(str, &end, 16)] together with the caller's test
    that the whole string was used. *)
Definition PyLong_FromString (str : pystr) : option Z :=
  let '(sign, str) := read_sign (skip_space str) in
  let start := skip_prefix str in
  if starts_with chr_underscore start then None
  else
    match long_from_binary_base start with
    | None => None
    | Some (z, str') =>
        if (length str' =? length start)%nat then None
        else
          match skip_space str' with
          | [] => Some (sign * z)
          | _ :: _ => None
          end
    end.

(** [int(x, 16)]: the exception names the base and the rejected string. *)
Definition py_int (x : pystr) : result Z :=
  match PyLong_FromString (TransformDecimalAndSpaceToASCII x) with
  | Some z => Ok z
  | None => Raise (ValueError base x)
  end.

(** ** The script *)

(** The list the script iterates over. *)
Definition hashes : list pystr :=
  [ lit "0000006c3a436500b20c0c80f5dae66e1233d84da4ddd5af2987cfdb1562eb9f";
    lit "0000010214efc2d0f09b4b0bce1f1f5af7df428471031886bff73119c45cdcbc";
    lit "000002d7a7e5d7bb05b43c21aef385b934c61d3a7605c0829c35defb490a651c" ].

(** The body of the loop, statement by statement. *)
Definition loop_body (h : pystr) : IO unit :=
  first_8 <- lift (py_int (slice_to h 16)) ;;
  first_4 <- lift (py_int (slice_to h 8)) ;;
  first_3 <- lift (py_int (slice_to h 6)) ;;
  print [lit "Hash: " ++ h] ;;
  print [lit "  First 3 bytes: " ++ str_int first_3] ;;
  print [lit "  First 4 bytes: " ++ str_int first_4] ;;
  print [lit "  First 8 bytes: " ++ str_int first_8] ;;
  print [].

(** [for h in hs: body]. *)
Fixpoint for_each (hs : list pystr) (body : pystr -> IO unit) : IO unit :=
  match hs with
  | [] => ret tt
  | h :: hs' => body h ;; for_each hs' body
  end.

(** The driver on an arbitrary list, and the script itself. *)
Definition driver (hs : list pystr) : IO unit := for_each hs loop_body.
Definition main : IO unit := driver hashes.

(** The three assignments of the loop body taken on their own: the
    operation the specification calls [decode]. *)
Record DecodedPrefixes : Type :=
  { first3 : Z; first4 : Z; first8 : Z }.

Definition decode (h : pystr) : result DecodedPrefixes :=
  first_8 <- py_int (slice_to h 16) ;;
  first_4 <- py_int (slice_to h 8) ;;
  first_3 <- py_int (slice_to h 6) ;;
  ret {| first3 := first_3; first4 := first_4; first8 := first_8 |}.

(** The five [print] statements of the loop body taken on their own. *)
Definition print_block (h : pystr) (r : DecodedPrefixes) : IO unit :=
  print [lit "Hash: " ++ h] ;;
  print [lit "  First 3 bytes: " ++ str_int (first3 r)] ;;
  print [lit "  First 4 bytes: " ++ str_int (first4 r)] ;;
  print [lit "  First 8 bytes: " ++ str_int (first8 r)] ;;
  print [].

End Decoder.

(** ** The specification's vocabulary *)

(** The hexadecimal alphabet [0-9a-fA-F]. *)
Definition is_hex_char (c : codepoint) : bool :=
  ((48 <=? c) && (c <=? 57) || (97 <=? c) && (c <=? 102)
   || (65 <=? c) && (c <=? 70))%N.

Definition hex_string (h : pystr) : Prop :=
  forallb is_hex_char h = true.

(** The value of one hexadecimal digit. *)
Definition spec_hex_digit (c : codepoint) : Z :=
  if ((48 <=? c) && (c <=? 57))%N then Z.of_N (c - 48)
  else if ((97 <=? c) && (c <=? 102))%N then Z.of_N (c - 97) + 10
  else Z.of_N (c - 65) + 10.

(** The base-16 value of a string of hexadecimal digits read big-endian:
    the most significant digit comes first. *)
Definition spec_hex_value (s : pystr) : Z :=
  fold_left (fun acc c => 16 * acc + spec_hex_digit c) s 0.

(** The value of a digit string whose least significant digit is first. *)
Fixpoint le_value (p : pystr) : Z :=
  match p with
  | [] => 0
  | c :: p' => spec_hex_digit c + 16 * le_value p'
  end.

(** The three values the specification prescribes for a hash string. *)
Definition spec_decode (h : pystr) : DecodedPrefixes :=
  {| first3 := spec_hex_value (slice_to h 6);
     first4 := spec_hex_value (slice_to h 8);
     first8 := spec_hex_value (slice_to h 16) |}.

(** Text made of lines, each ended by a newline. *)
Definition unlines (ls : list pystr) : pystr :=
  concat (List.map (fun l => l ++ [newline]) ls).

(** The block of output the specification prescribes for a hash and its
    decoded prefixes: the hash, the three values, a blank line. *)
Definition block (h : pystr) (r : DecodedPrefixes) : list pystr :=
  [ lit "Hash: " ++ h;
    lit "  First 3 bytes: " ++ str_int (first3 r);
    lit "  First 4 bytes: " ++ str_int (first4 r);
    lit "  First 8 bytes: " ++ str_int (first8 r);
    [] ].

Fixpoint blocks (hs : list pystr) (rs : list DecodedPrefixes) : list pystr :=
  match hs, rs with
  | h :: hs', r :: rs' => block h r ++ blocks hs' rs'
  | _, _ => []
  end.

(** Characters that can occur in a string [int(_, 16)] accepts: the
    hexadecimal digits, white space, the signs, the underscore and the
    [x] of the prefix; from 127 on, what the Unicode database classifies
    as white space or as a decimal digit. *)
Definition literal_ascii (c : codepoint) : bool :=
  (is_hex_char c || Py_ISSPACE c || (c =? chr_plus) || (c =? chr_minus)
   || (c =? chr_underscore) || (c =? chr_x) || (c =? chr_X))%N.


(** [h[a:b]] for [a <= b]: the characters from position [a] up to, not
    including, position [b]. *)
Definition slice_from_to (h : pystr) (a b : nat) : pystr :=
  skipn a (firstn b h).

(** An ASCII capital letter turned into its small letter; every other
    character is left alone. *)
Definition to_lower (c : codepoint) : codepoint :=
  if ((65 <=? c) && (c <=? 90))%N then (c + 32)%N else c.

(** What the scan of the parser lets through: a digit below the base or
    an underscore. *)
Definition digit_or_underscore (c : codepoint) : bool :=
  (PyLong_DigitValue c <? base) || (c =? chr_underscore)%N.

(** * Properties *)

(** ** Case analysis on character comparisons *)

Ltac chars :=
  unfold literal_ascii, is_hex_char, Py_ISSPACE, PyLong_DigitValue,
    spec_hex_digit, base, bits_per_char, chr_space, chr_plus, chr_minus,
    chr_0, chr_question, chr_X, chr_underscore, chr_x in *.

Ltac cmp_cases :=
  repeat match goal with
    | |- context [N.leb ?a ?b] => destruct (N.leb_spec a b)
    | |- context [N.ltb ?a ?b] => destruct (N.ltb_spec a b)
    | |- context [N.eqb ?a ?b] => destruct (N.eqb_spec a b)
    | |- context [Z.ltb ?a ?b] => destruct (Z.ltb_spec a b)
    | H : context [N.leb ?a ?b] |- _ => destruct (N.leb_spec a b)
    | H : context [N.ltb ?a ?b] |- _ => destruct (N.ltb_spec a b)
    | H : context [N.eqb ?a ?b] |- _ => destruct (N.eqb_spec a b)
    | H : context [Z.ltb ?a ?b] |- _ => destruct (Z.ltb_spec a b)
    end;
  simpl in *; try discriminate; try lia; try reflexivity.

Ltac char_facts := chars; cmp_cases.

(** ** Hexadecimal digits *)

Lemma hex_digit_value c :
  is_hex_char c = true -> PyLong_DigitValue c = spec_hex_digit c.
Proof. intros H. char_facts. Qed.

Lemma hex_digit_range c :
  is_hex_char c = true -> 0 <= spec_hex_digit c < 16.
Proof. intros H. char_facts. Qed.

Lemma hex_digit_below_base c :
  is_hex_char c = true -> (PyLong_DigitValue c <? base) = true.
Proof. intros H. char_facts. Qed.


Lemma digit_value_nonneg c : 0 <= PyLong_DigitValue c.
Proof. char_facts. Qed.

Lemma hex_not_space c : is_hex_char c = true -> Py_ISSPACE c = false.
Proof. intros H. char_facts. Qed.

Lemma hex_not_underscore c :
  is_hex_char c = true -> (c =? chr_underscore)%N = false.
Proof. intros H. char_facts. Qed.

Lemma hex_is_ascii c : is_hex_char c = true -> (c <? 128)%N = true.
Proof. intros H. char_facts. Qed.

Lemma hex_string_cons c s :
  hex_string (c :: s) <-> is_hex_char c = true /\ hex_string s.
Proof. unfold hex_string. simpl. apply andb_true_iff. Qed.

Lemma hex_string_app a b :
  hex_string (a ++ b) <-> hex_string a /\ hex_string b.
Proof. unfold hex_string. rewrite forallb_app. apply andb_true_iff. Qed.

Lemma hex_string_firstn n h : hex_string h -> hex_string (firstn n h).
Proof.
  intros H. rewrite <- (firstn_skipn n h) in H.
  apply hex_string_app in H. tauto.
Qed.

(** ** The two ways of reading a number *)

(** Or-ing a digit in above the bits already filled is an addition. *)
Lemma lor_shiftl_disjoint a d n :
  0 <= n -> 0 <= a < 2 ^ n -> Z.lor a (Z.shiftl d n) = a + d * 2 ^ n.
Proof.
  intros Hn Ha.
  assert (E : Z.land a (Z.shiftl d n) = 0).
  { apply Z.bits_inj'. intros i Hi. rewrite Z.land_spec, Z.bits_0.
    destruct (Z.lt_ge_cases i n) as [L | G].
    - rewrite (Z.shiftl_spec_low d n i L). apply andb_false_r.
    - assert (Z.testbit a i = false) as ->; [| reflexivity].
      destruct (Z.eq_dec a 0) as [-> | Hnz]; [apply Z.bits_0 |].
      apply Z.bits_above_log2; [lia |].
      apply Z.log2_lt_pow2; [lia |].
      apply Z.lt_le_trans with (2 ^ n); [lia |].
      apply Z.pow_le_mono_r; lia. }
  pose proof (Z.add_lor_land a (Z.shiftl d n)) as H.
  rewrite E in H. rewrite <- (Z.shiftl_mul_pow2 d n Hn). lia.
Qed.

Lemma le_value_range p :
  hex_string p -> 0 <= le_value p < 16 ^ Z.of_nat (List.length p).
Proof.
  induction p as [| c p IH]; intros H.
  - simpl. lia.
  - apply hex_string_cons in H. destruct H as [Hc Hp].
    specialize (IH Hp). pose proof (hex_digit_range c Hc).
    change (List.length (c :: p)) with (S (List.length p)).
    rewrite Nat2Z.inj_succ, Z.pow_succ_r by lia.
    change (le_value (c :: p)) with (spec_hex_digit c + 16 * le_value p).
    lia.
Qed.

Lemma fill_from_right_le_value p :
  forall accum bits,
    hex_string p -> 0 <= bits -> 0 <= accum < 2 ^ bits ->
    fill_from_right p accum bits = accum + 2 ^ bits * le_value p.
Proof.
  induction p as [| c p IH]; intros accum bits H Hb Ha.
  - simpl. lia.
  - apply hex_string_cons in H. destruct H as [Hc Hp].
    cbn [fill_from_right le_value].
    rewrite (hex_not_underscore c Hc), (hex_digit_value c Hc).
    pose proof (hex_digit_range c Hc) as Hd.
    rewrite lor_shiftl_disjoint by lia.
    assert (P : 2 ^ (bits + bits_per_char) = 2 ^ bits * 16).
    { unfold bits_per_char. rewrite Z.pow_add_r by lia. reflexivity. }
    rewrite IH; [rewrite P; ring | assumption | unfold bits_per_char; lia |].
    rewrite P. nia.
Qed.

Lemma spec_hex_value_snoc s c :
  spec_hex_value (s ++ [c]) = 16 * spec_hex_value s + spec_hex_digit c.
Proof. unfold spec_hex_value. rewrite fold_left_app. reflexivity. Qed.

Lemma spec_hex_value_le_value s :
  spec_hex_value s = le_value (rev s).
Proof.
  induction s as [| c s IH] using rev_ind.
  - reflexivity.
  - rewrite spec_hex_value_snoc, rev_app_distr, IH.
    cbn [rev app le_value]. lia.
Qed.

(** Reading from the right with shifts gives the big-endian value. *)
Lemma fill_from_right_spec s :
  hex_string s -> fill_from_right (rev s) 0 0 = spec_hex_value s.
Proof.
  intros H. rewrite fill_from_right_le_value.
  - rewrite spec_hex_value_le_value, Z.pow_0_r. lia.
  - unfold hex_string in *. rewrite forallb_forall in *.
    intros c Hc. apply H. apply in_rev. assumption.
  - lia.
  - simpl. lia.
Qed.

Section Properties.

Context {udb : UnicodeDB} {stdout : Stdout}.

(** ** [int(_, 16)] on strings of hexadecimal digits *)

Lemma scan_digits_hex s :
  forall prev,
    hex_string s -> (s = [] -> (prev =? chr_underscore)%N = false) ->
    scan_digits prev s = Some (s, []).
Proof.
  induction s as [| c s IH]; intros prev H Hp.
  - simpl. rewrite Hp by reflexivity. reflexivity.
  - apply hex_string_cons in H. destruct H as [Hc Hs].
    cbn [scan_digits].
    rewrite (hex_digit_below_base c Hc), (hex_not_underscore c Hc).
    cbn [orb andb]. rewrite IH; auto using hex_not_underscore.
Qed.

Lemma transform_hex s :
  hex_string s -> TransformDecimalAndSpaceToASCII s = s.
Proof.
  intros H. unfold TransformDecimalAndSpaceToASCII.
  assert (is_ascii s = true) as ->; [| reflexivity].
  unfold is_ascii, hex_string in *. rewrite forallb_forall in *.
  intros c Hc. apply hex_is_ascii. auto.
Qed.

Lemma skip_prefix_hex s : hex_string s -> skip_prefix s = s.
Proof.
  intros H. destruct s as [| c0 [| c1 s]]; try reflexivity.
  apply hex_string_cons in H. destruct H as [_ H].
  apply hex_string_cons in H. destruct H as [H1 _].
  unfold skip_prefix. char_facts.
Qed.

Lemma PyLong_FromString_hex s :
  s <> [] -> hex_string s -> PyLong_FromString s = Some (spec_hex_value s).
Proof.
  intros Hne H. destruct s as [| c s]; [congruence |].
  pose proof H as H0. apply hex_string_cons in H0. destruct H0 as [Hc Hs].
  unfold PyLong_FromString.
  assert (skip_space (c :: s) = c :: s) as ->
      by (simpl; rewrite hex_not_space; auto).
  assert (read_sign (c :: s) = (1, c :: s)) as ->
      by (unfold read_sign; char_facts).
  rewrite (skip_prefix_hex _ H).
  cbn [starts_with]. rewrite (hex_not_underscore c Hc).
  unfold long_from_binary_base.
  rewrite scan_digits_hex by (auto; discriminate).
  rewrite (fill_from_right_spec _ H). simpl.
  destruct (spec_hex_value (c :: s)); reflexivity.
Qed.

Lemma py_int_hex s :
  s <> [] -> hex_string s -> py_int s = Ok (spec_hex_value s).
Proof.
  intros Hne H. unfold py_int.
  rewrite (transform_hex _ H), (PyLong_FromString_hex _ Hne H). reflexivity.
Qed.

Lemma slice_to_nonempty h n : h <> [] -> slice_to h (S n) <> [].
Proof. destruct h; [congruence | discriminate]. Qed.

Lemma slice_to_slice_to h n m :
  (n <= m)%nat -> slice_to (slice_to h m) n = slice_to h n.
Proof.
  intros L. unfold slice_to. rewrite firstn_firstn.
  f_equal. apply Nat.min_l. assumption.
Qed.

(** On a non-empty string whose first 16 characters are hexadecimal
    digits the loop body's three parses succeed with the values the
    specification prescribes. *)
Lemma decode_hex h :
  h <> [] -> hex_string (slice_to h 16) -> decode h = Ok (spec_decode h).
Proof.
  intros Hne H. unfold decode.
  assert (H8 : hex_string (slice_to h 8)).
  { rewrite <- (slice_to_slice_to h 8 16) by lia. apply hex_string_firstn, H. }
  assert (H6 : hex_string (slice_to h 6)).
  { rewrite <- (slice_to_slice_to h 6 16) by lia. apply hex_string_firstn, H. }
  rewrite !py_int_hex by (assumption || apply slice_to_nonempty, Hne).
  reflexivity.
Qed.

Lemma spec_hex_value_app a b :
  spec_hex_value (a ++ b) =
  spec_hex_value a * 16 ^ Z.of_nat (List.length b) + spec_hex_value b.
Proof.
  induction b as [| c b IH] using rev_ind.
  - rewrite app_nil_r. change (spec_hex_value []) with 0.
    change (Z.of_nat (List.length (@nil codepoint))) with 0.
    rewrite Z.pow_0_r. lia.
  - rewrite app_assoc, !spec_hex_value_snoc, IH, length_app.
    cbn [List.length]. rewrite Nat.add_1_r, Nat2Z.inj_succ, Z.pow_succ_r by lia.
    ring.
Qed.

Lemma spec_hex_value_range s :
  hex_string s -> 0 <= spec_hex_value s < 16 ^ Z.of_nat (List.length s).
Proof.
  intros H. rewrite spec_hex_value_le_value, <- length_rev.
  apply le_value_range. unfold hex_string in *. rewrite forallb_forall in *.
  intros c Hc. apply H, in_rev, Hc.
Qed.

(** A shorter prefix is the longer one shifted right by four bits for
    each character dropped. *)
Lemma spec_hex_value_prefix s n m :
  hex_string s -> (n <= m)%nat -> (m <= List.length s)%nat ->
  spec_hex_value (slice_to s n) =
  Z.shiftr (spec_hex_value (slice_to s m)) (4 * Z.of_nat (m - n)).
Proof.
  intros H Lnm Lm.
  rewrite <- (slice_to_slice_to s n m Lnm).
  set (p := slice_to s m).
  assert (Hp : hex_string p) by apply hex_string_firstn, H.
  assert (Lp : List.length p = m) by (apply firstn_length_le, Lm).
  rewrite <- (firstn_skipn n p) at 2. fold (slice_to p n).
  apply hex_string_firstn with (n := n) in Hp as Hq.
  assert (Hr : hex_string (skipn n p)).
  { rewrite <- (firstn_skipn n p) in Hp. apply hex_string_app in Hp. tauto. }
  rewrite spec_hex_value_app, length_skipn, Lp.
  pose proof (spec_hex_value_range _ Hr) as R.
  rewrite length_skipn, Lp in R.
  rewrite Z.shiftr_div_pow2, Z.pow_mul_r by lia.
  change (2 ^ 4) with 16.
  rewrite Z.div_add_l by lia. rewrite Z.div_small by lia. lia.
Qed.

(** ** Running the loop *)

Lemma unlines_app a b : unlines (a ++ b) = unlines a ++ unlines b.
Proof. unfold unlines. rewrite map_app, concat_app. reflexivity. Qed.

(** *** Writing *)

Lemma encodable_app a b :
  encodable (a ++ b) <-> encodable a /\ encodable b.
Proof. unfold encodable. rewrite forallb_app. apply andb_true_iff. Qed.

Lemma write_encodable s out :
  encodable s -> write s out = (out ++ s, Ok tt).
Proof. unfold write, encodable. intros ->. reflexivity. Qed.

Lemma write_unencodable s out :
  forallb can_encode s = false ->
  write s out = (out, Raise (UnicodeEncodeError s)).
Proof. unfold write. intros ->. reflexivity. Qed.

Lemma print_line s out :
  encodable (s ++ [newline]) ->
  print [s] out = (out ++ s ++ [newline], Ok tt).
Proof.
  intros H. apply encodable_app in H. destruct H as [Hs Hn].
  unfold print, write_args. cbn [Nat.ltb Nat.leb bind Monad_IO ret].
  rewrite (write_encodable s out Hs), (write_encodable [newline] _ Hn).
  rewrite <- app_assoc. reflexivity.
Qed.

Lemma print_unencodable s out :
  forallb can_encode s = false ->
  print [s] out = (out, Raise (UnicodeEncodeError s)).
Proof.
  intros H. unfold print, write_args. cbn [Nat.ltb Nat.leb bind Monad_IO ret].
  rewrite (write_unencodable s out H). reflexivity.
Qed.

Lemma print_blank out :
  encodable [newline] -> print [] out = (out ++ [newline], Ok tt).
Proof.
  intros H. unfold print, write_args. cbn [bind Monad_IO ret].
  apply write_encodable, H.
Qed.

(** *** One iteration *)

(** One iteration raises what [decode] raises, with nothing written, or
    goes on to the five prints. *)
Lemma loop_body_decode h out :
  loop_body h out =
  match decode h with
  | Ok r => print_block h r out
  | Raise e => (out, Raise e)
  end.
Proof.
  unfold loop_body, decode, lift. cbn [bind Monad_IO Monad_result].
  destruct (py_int (slice_to h 16)) as [v8 | e]; [| reflexivity].
  destruct (py_int (slice_to h 8)) as [v4 | e]; [| reflexivity].
  destruct (py_int (slice_to h 6)) as [v3 | e]; [| reflexivity].
  reflexivity.
Qed.

Lemma unlines_block h r :
  unlines (block h r) =
  ((lit "Hash: " ++ h) ++ [newline])
  ++ ((lit "  First 3 bytes: " ++ str_int (first3 r)) ++ [newline])
  ++ ((lit "  First 4 bytes: " ++ str_int (first4 r)) ++ [newline])
  ++ ((lit "  First 8 bytes: " ++ str_int (first8 r)) ++ [newline])
  ++ [newline].
Proof. unfold unlines, block. cbn [List.map concat app]. reflexivity. Qed.

(** When standard output can encode the block, the five prints write
    it. *)
Lemma print_block_encodable h r out :
  encodable (unlines (block h r)) ->
  print_block h r out = (out ++ unlines (block h r), Ok tt).
Proof.
  rewrite unlines_block. intros H.
  apply encodable_app in H. destruct H as [H1 H].
  apply encodable_app in H. destruct H as [H2 H].
  apply encodable_app in H. destruct H as [H3 H].
  apply encodable_app in H. destruct H as [H4 H5].
  unfold print_block. cbn [bind Monad_IO].
  rewrite (print_line _ _ H1), (print_line _ _ H2), (print_line _ _ H3),
    (print_line _ _ H4), (print_blank _ H5).
  rewrite <- !app_assoc. reflexivity.
Qed.

(** When the hash itself cannot be encoded, the first print raises and
    nothing is written. *)
Lemma print_block_unencodable h r out :
  forallb can_encode h = false ->
  print_block h r out = (out, Raise (UnicodeEncodeError (lit "Hash: " ++ h))).
Proof.
  intros H. unfold print_block. cbn [bind Monad_IO].
  rewrite print_unencodable; [reflexivity |].
  rewrite forallb_app, H. apply andb_false_r.
Qed.

(** *** The whole loop *)

Lemma driver_cons h hs out :
  driver (h :: hs) out =
  match loop_body h out with
  | (out', Ok _) => driver hs out'
  | (out', Raise e) => (out', Raise e)
  end.
Proof. reflexivity. Qed.

Lemma driver_all_ok hs rs :
  Forall2 (fun h r => decode h = Ok r) hs rs ->
  encodable (unlines (blocks hs rs)) ->
  forall out, driver hs out = (out ++ unlines (blocks hs rs), Ok tt).
Proof.
  induction 1 as [| h r hs rs Hd _ IH]; intros He out.
  - cbn. rewrite app_nil_r. reflexivity.
  - cbn [blocks] in *. rewrite unlines_app in *.
    apply encodable_app in He. destruct He as [Hb Hr].
    rewrite driver_cons, loop_body_decode, Hd, (print_block_encodable _ _ _ Hb).
    rewrite (IH Hr), app_assoc. reflexivity.
Qed.

Lemma driver_first_failure pre rs bad post e :
  Forall2 (fun h r => decode h = Ok r) pre rs ->
  encodable (unlines (blocks pre rs)) ->
  decode bad = Raise e ->
  forall out,
    driver (pre ++ bad :: post) out = (out ++ unlines (blocks pre rs), Raise e).
Proof.
  intros Hpre He Hbad. induction Hpre as [| h r hs rs Hd _ IH]; intros out.
  - cbn [app]. rewrite driver_cons, loop_body_decode, Hbad.
    cbn. rewrite app_nil_r. reflexivity.
  - cbn [blocks] in *. rewrite unlines_app in *.
    apply encodable_app in He. destruct He as [Hb Hr].
    cbn [app].
    rewrite driver_cons, loop_body_decode, Hd, (print_block_encodable _ _ _ Hb).
    rewrite (IH Hr), app_assoc. reflexivity.
Qed.

(** ** Signs *)

Lemma fill_from_right_nonneg p :
  forall accum bits,
    0 <= accum -> 0 <= bits -> 0 <= fill_from_right p accum bits.
Proof.
  induction p as [| c p IH]; intros accum bits Ha Hb; cbn [fill_from_right].
  - assumption.
  - destruct (c =? chr_underscore)%N.
    + apply IH; assumption.
    + apply IH; [| unfold bits_per_char; lia].
      apply Z.lor_nonneg. split; [assumption |].
      apply Z.shiftl_nonneg, digit_value_nonneg.
Qed.

Lemma skip_space_incl c s : In c (skip_space s) -> In c s.
Proof.
  induction s as [| a s IH]; cbn [skip_space]; [tauto |].
  destruct (Py_ISSPACE a); [| tauto]. intros H. right. auto.
Qed.

Lemma read_sign_plus s :
  ~ In chr_minus s -> fst (read_sign s) = 1.
Proof.
  intros H. destruct s as [| c s]; [reflexivity |].
  unfold read_sign. destruct (c =? chr_plus)%N; [reflexivity |].
  destruct (N.eqb_spec c chr_minus) as [-> | _]; [| reflexivity].
  exfalso. apply H. left. reflexivity.
Qed.

Lemma PyLong_FromString_nonneg s z :
  PyLong_FromString s = Some z -> ~ In chr_minus s -> 0 <= z.
Proof.
  unfold PyLong_FromString, long_from_binary_base. intros H Hm.
  assert (S1 : fst (read_sign (skip_space s)) = 1).
  { apply read_sign_plus. intros Hin. apply Hm, skip_space_incl, Hin. }
  destruct (read_sign (skip_space s)) as [sign str]. cbn [fst] in S1. subst sign.
  destruct (starts_with chr_underscore (skip_prefix str)); [discriminate |].
  destruct (scan_digits 0%N (skip_prefix str)) as [[scanned rest] |];
    [| discriminate].
  destruct (List.length rest =? List.length (skip_prefix str))%nat;
    [discriminate |].
  destruct (skip_space rest); [| discriminate].
  injection H as H.
  pose proof (fill_from_right_nonneg (rev scanned) 0 0) as F.
  destruct (fill_from_right (rev scanned) 0 0); lia.
Qed.

Lemma transform_loop_no_minus u :
  ~ In chr_minus u -> ~ In chr_minus (transform_loop u).
Proof.
  induction u as [| ch u IH]; cbn [transform_loop]; [tauto |].
  intros H. assert (Hu : ~ In chr_minus u) by (intros X; apply H; right; exact X).
  assert (Hc : ch <> chr_minus) by (intros X; apply H; left; exact X).
  specialize (IH Hu).
  destruct (ch <? 127)%N.
  - intros [X | X]; auto.
  - destruct (uni_isspace ch).
    + intros [X | X]; [discriminate | auto].
    + destruct (uni_todecimal ch) as [d |].
      * intros [X | X]; [| auto]. unfold chr_0, chr_minus in X. lia.
      * intros [X | []]. discriminate.
Qed.

Lemma transform_no_minus u :
  ~ In chr_minus u -> ~ In chr_minus (TransformDecimalAndSpaceToASCII u).
Proof.
  unfold TransformDecimalAndSpaceToASCII.
  destruct (is_ascii u); [tauto | apply transform_loop_no_minus].
Qed.

Lemma py_int_nonneg s z :
  py_int s = Ok z -> ~ In chr_minus s -> 0 <= z.
Proof.
  unfold py_int. intros H Hm.
  destruct (PyLong_FromString (TransformDecimalAndSpaceToASCII s)) as [z' |] eqn:E;
    [| discriminate].
  injection H as <-.
  apply (PyLong_FromString_nonneg _ _ E), transform_no_minus, Hm.
Qed.

Lemma slice_to_incl c h n m :
  (n <= m)%nat -> In c (slice_to h n) -> In c (slice_to h m).
Proof.
  intros L H. rewrite <- (slice_to_slice_to h n m L) in H.
  unfold slice_to in H. rewrite <- (firstn_skipn n (slice_to h m)).
  apply in_or_app. left. exact H.
Qed.

(** What [decode] returns, read off its three parses. *)
Lemma decode_ok_inv h r :
  decode h = Ok r ->
  py_int (slice_to h 16) = Ok (first8 r) /\
  py_int (slice_to h 8) = Ok (first4 r) /\
  py_int (slice_to h 6) = Ok (first3 r).
Proof.
  unfold decode. cbn [bind Monad_result ret].
  destruct (py_int (slice_to h 16)); [| discriminate].
  destruct (py_int (slice_to h 8)); [| discriminate].
  destruct (py_int (slice_to h 6)); [| discriminate].
  intros H. injection H as <-. auto.
Qed.

(** ** Characters the parser rejects *)











(** ** The claims *)


(** C2. For every string [h] of hexadecimal digits of length at least 16,
    the values [decode h] produces are nested: [first3] is [first4]
    shifted right by 8 bits and [first4] is [first8] shifted right by 32
    bits. *)
Theorem decode_nesting h r :
  hex_string h -> (16 <= List.length h)%nat -> decode h = Ok r ->
  first3 r = Z.shiftr (first4 r) 8 /\ first4 r = Z.shiftr (first8 r) 32.
Proof.
  intros H L Hd. rewrite decode_hex in Hd.
  - injection Hd as <-. unfold spec_decode. cbn [first3 first4 first8]. split.
    + exact (spec_hex_value_prefix h 6 8 H ltac:(lia) ltac:(lia)).
    + exact (spec_hex_value_prefix h 8 16 H ltac:(lia) ltac:(lia)).
  - destruct h; [cbn in L; lia | discriminate].
  - apply hex_string_firstn, H.
Qed.

(** C3. The driver goes through the list in order and prints, for each
    hash, exactly one block: the line [Hash: <hash>], the three decoded
    values on a line each, and a blank line; the blocks come in the order
    of the list.  Stated for every list whose entries all decode and
    whose blocks standard output can encode. *)
Theorem driver_prints_blocks hs rs :
  Forall2 (fun h r => decode h = Ok r) hs rs ->
  encodable (unlines (blocks hs rs)) ->
  driver hs [] = (unlines (blocks hs rs), Ok tt).
Proof. intros H E. rewrite (driver_all_ok hs rs H E). reflexivity. Qed.


(** C5. If some entry of the list raises the parse error, the program
    ends there with that exception: the complete blocks of exactly the
    entries before it have been printed, and nothing of the failing entry
    or of the entries after it.  The entries before it are ones that
    decode and whose blocks standard output can encode. *)
Theorem driver_stops_at_first_failure pre rs bad post e :
  Forall2 (fun h r => decode h = Ok r) pre rs ->
  encodable (unlines (blocks pre rs)) ->
  decode bad = Raise e ->
  driver (pre ++ bad :: post) [] = (unlines (blocks pre rs), Raise e).
Proof.
  intros Hpre He Hbad.
  rewrite (driver_first_failure pre rs bad post e Hpre He Hbad). reflexivity.
Qed.

(** C6, amended.  For every non-empty string of hexadecimal digits of at
    most 16 characters [decode] does not raise: with exactly 16
    characters all three extractions succeed, and with fewer the 8-byte
    value is silently the base-16 value of the whole string. *)
Theorem decode_short_hex h :
  h <> [] -> hex_string h -> (List.length h <= 16)%nat ->
  decode h = Ok {| first3 := spec_hex_value (slice_to h 6);
                   first4 := spec_hex_value (slice_to h 8);
                   first8 := spec_hex_value h |}.
Proof.
  intros Hne H L. rewrite decode_hex.
  - unfold spec_decode, slice_to. rewrite (firstn_all2 (n := 16) h L).
    reflexivity.
  - assumption.
  - apply hex_string_firstn, H.
Qed.

(** C7, amended.  On the first hash of the list [decode] yields
    [first3 = 0], [first4 = 108] and [first8 = 464833963264]. *)
Theorem decode_first_fixture :
  decode (lit "0000006c3a436500b20c0c80f5dae66e1233d84da4ddd5af2987cfdb1562eb9f")
  = Ok {| first3 := 0; first4 := 108; first8 := 464833963264 |}.
Proof. vm_compute. reflexivity. Qed.

(** C8, amended.  For every string on which [decode] succeeds and whose
    first 16 characters contain no minus sign, the three values are
    non-negative. *)
Theorem decode_nonneg h r :
  decode h = Ok r -> ~ In chr_minus (slice_to h 16) ->
  0 <= first3 r /\ 0 <= first4 r /\ 0 <= first8 r.
Proof.
  intros Hd Hm. apply decode_ok_inv in Hd. destruct Hd as (H8 & H4 & H3).
  repeat split.
  - apply (py_int_nonneg _ _ H3). intros X. apply Hm.
    apply (slice_to_incl _ h 6 16); [lia | exact X].
  - apply (py_int_nonneg _ _ H4). intros X. apply Hm.
    apply (slice_to_incl _ h 8 16); [lia | exact X].
  - apply (py_int_nonneg _ _ H8). exact Hm.
Qed.

(** C9. On the empty string [decode] raises the parse error, although the
    empty string has no character outside the hexadecimal alphabet. *)
Theorem decode_empty :
  decode (lit "") = Raise (ValueError 16 (lit "")) /\ hex_string (lit "").
Proof. split; reflexivity. Qed.

(** C10. In one iteration the three parses come before any printing, the
    16-character prefix first: whichever of them is the first to raise,
    the iteration ends with that exception and has written nothing. *)
Theorem loop_body_no_partial_block h out :
  (forall e,
      py_int (slice_to h 16) = Raise e -> loop_body h out = (out, Raise e))
  /\ (forall v8 e,
        py_int (slice_to h 16) = Ok v8 -> py_int (slice_to h 8) = Raise e ->
        loop_body h out = (out, Raise e))
  /\ (forall v8 v4 e,
        py_int (slice_to h 16) = Ok v8 -> py_int (slice_to h 8) = Ok v4 ->
        py_int (slice_to h 6) = Raise e ->
        loop_body h out = (out, Raise e)).
Proof.
  unfold loop_body, lift. cbn [bind Monad_IO].
  repeat split.
  - intros e ->. reflexivity.
  - intros v8 e -> ->. reflexivity.
  - intros v8 v4 e -> -> ->. reflexivity.
Qed.

(** ** Further properties of the script *)

Lemma decode_slice h : decode (slice_to h 16) = decode h.
Proof. unfold decode. rewrite !slice_to_slice_to by lia. reflexivity. Qed.

(** X1. Only the first 16 characters of a hash matter: two strings that
    agree on them decode alike, whatever follows. *)
Theorem decode_same_prefix h1 h2 :
  slice_to h1 16 = slice_to h2 16 -> decode h1 = decode h2.
Proof.
  intros E. rewrite <- (decode_slice h1), <- (decode_slice h2), E.
  reflexivity.
Qed.

(** *** The size of the values *)

Lemma transform_loop_length u :
  (List.length (transform_loop u) <= List.length u)%nat.
Proof.
  induction u as [| ch u IH]; cbn [transform_loop]; [lia |].
  destruct (ch <? 127)%N; [cbn [List.length]; lia |].
  destruct (uni_isspace ch); [cbn [List.length]; lia |].
  destruct (uni_todecimal ch); cbn [List.length]; lia.
Qed.

Lemma transform_length u :
  (List.length (TransformDecimalAndSpaceToASCII u) <= List.length u)%nat.
Proof.
  unfold TransformDecimalAndSpaceToASCII.
  destruct (is_ascii u); [lia | apply transform_loop_length].
Qed.

Lemma skip_space_length s :
  (List.length (skip_space s) <= List.length s)%nat.
Proof.
  induction s as [| c s IH]; cbn [skip_space]; [lia |].
  destruct (Py_ISSPACE c); cbn [List.length] in *; lia.
Qed.

Lemma read_sign_length s :
  (List.length (snd (read_sign s)) <= List.length s)%nat.
Proof.
  destruct s as [| c s]; cbn [read_sign]; [cbn; lia |].
  destruct (c =? chr_plus)%N; [cbn; lia |].
  destruct (c =? chr_minus)%N; cbn; lia.
Qed.

Lemma read_sign_sign s :
  fst (read_sign s) = 1 \/ fst (read_sign s) = -1.
Proof.
  destruct s as [| c s]; cbn [read_sign]; [auto |].
  destruct (c =? chr_plus)%N; [auto |].
  destruct (c =? chr_minus)%N; auto.
Qed.

Lemma skip_prefix_length s :
  (List.length (skip_prefix s) <= List.length s)%nat.
Proof.
  destruct s as [| c0 [| c1 s]]; cbn [skip_prefix]; try lia.
  destruct ((c0 =? chr_0) && ((c1 =? chr_x) || (c1 =? chr_X)))%N; [| lia].
  destruct s as [| c2 s]; [cbn; lia |].
  destruct (c2 =? chr_underscore)%N; cbn; lia.
Qed.

Lemma scan_digits_scanned p :
  forall prev scanned rest,
    scan_digits prev p = Some (scanned, rest) ->
    (List.length scanned <= List.length p)%nat /\
    forallb digit_or_underscore scanned = true.
Proof.
  induction p as [| c p IH]; intros prev scanned rest H; cbn [scan_digits] in H.
  - destruct (prev =? chr_underscore)%N; [discriminate |].
    injection H as <- _. split; [lia | reflexivity].
  - fold (digit_or_underscore c) in H.
    destruct (digit_or_underscore c) eqn:E.
    + destruct ((c =? chr_underscore) && (prev =? chr_underscore))%N;
        [discriminate |].
      destruct (scan_digits c p) as [[scanned' rest'] |] eqn:S;
        [| discriminate].
      injection H as <- _. destruct (IH _ _ _ S) as [L F].
      cbn [List.length forallb]. rewrite E, F. split; [lia | reflexivity].
    + destruct (prev =? chr_underscore)%N; [discriminate |].
      injection H as <- _. split; [cbn; lia | reflexivity].
Qed.

Lemma fill_from_right_bound p :
  forall accum bits,
    forallb digit_or_underscore p = true ->
    0 <= bits -> 0 <= accum < 2 ^ bits ->
    0 <= fill_from_right p accum bits
      < 2 ^ (bits + 4 * Z.of_nat (List.length p)).
Proof.
  induction p as [| c p IH]; intros accum bits H Hb Ha.
  - cbn [fill_from_right List.length]. rewrite Z.add_0_r. exact Ha.
  - cbn [forallb] in H. apply andb_true_iff in H. destruct H as [Hc Hp].
    assert (P : 2 ^ (bits + 4 * Z.of_nat (List.length (c :: p)))
                = 2 ^ (bits + 4 * Z.of_nat (List.length p)) * 16).
    { cbn [List.length]. rewrite Nat2Z.inj_succ.
      replace (bits + 4 * Z.succ (Z.of_nat (List.length p)))
        with (bits + 4 * Z.of_nat (List.length p) + 4) by lia.
      rewrite Z.pow_add_r by lia. reflexivity. }
    cbn [fill_from_right]. unfold digit_or_underscore in Hc.
    destruct (c =? chr_underscore)%N.
    + specialize (IH accum bits Hp Hb Ha). rewrite P. lia.
    + rewrite orb_false_r in Hc. apply Z.ltb_lt in Hc. unfold base in Hc.
      pose proof (digit_value_nonneg c) as Hd.
      rewrite lor_shiftl_disjoint by lia.
      assert (Q : 2 ^ (bits + bits_per_char) = 2 ^ bits * 16).
      { unfold bits_per_char. rewrite Z.pow_add_r by lia. reflexivity. }
      assert (B : 0 <= accum + PyLong_DigitValue c * 2 ^ bits
                  < 2 ^ (bits + bits_per_char)) by (rewrite Q; nia).
      assert (Hb' : 0 <= bits + bits_per_char) by (unfold bits_per_char; lia).
      specialize (IH _ _ Hp Hb' B).
      replace (bits + bits_per_char + 4 * Z.of_nat (List.length p))
        with (bits + 4 * Z.of_nat (List.length p) + 4) in IH
        by (unfold bits_per_char; lia).
      rewrite Z.pow_add_r in IH by lia. rewrite P. exact IH.
Qed.

Lemma forallb_rev {A} (f : A -> bool) l :
  forallb f l = true -> forallb f (rev l) = true.
Proof.
  rewrite !forallb_forall. intros H x Hx. apply H, in_rev, Hx.
Qed.

(** A string of [n] characters parses to a number below [16 ^ n] in
    absolute value. *)
Lemma PyLong_FromString_bound s z :
  PyLong_FromString s = Some z ->
  Z.abs z < 16 ^ Z.of_nat (List.length s).
Proof.
  unfold PyLong_FromString, long_from_binary_base. intros H.
  pose proof (read_sign_sign (skip_space s)) as Hs.
  pose proof (read_sign_length (skip_space s)) as L1.
  pose proof (skip_space_length s) as L0.
  destruct (read_sign (skip_space s)) as [sign str]. cbn [fst snd] in *.
  pose proof (skip_prefix_length str) as L2.
  destruct (starts_with chr_underscore (skip_prefix str)); [discriminate |].
  destruct (scan_digits 0%N (skip_prefix str)) as [[scanned rest] |] eqn:S;
    [| discriminate].
  destruct (List.length rest =? List.length (skip_prefix str))%nat;
    [discriminate |].
  destruct (skip_space rest); [| discriminate].
  injection H as H.
  destruct (scan_digits_scanned _ _ _ _ S) as [L3 F].
  pose proof (fill_from_right_bound (rev scanned) 0 0
                (forallb_rev _ _ F) ltac:(lia) ltac:(cbn; lia)) as B.
  rewrite length_rev, Z.add_0_l, Z.pow_mul_r in B by lia.
  change (2 ^ 4) with 16 in B.
  assert (M : 16 ^ Z.of_nat (List.length scanned)
              <= 16 ^ Z.of_nat (List.length s))
    by (apply Z.pow_le_mono_r; lia).
  destruct Hs as [-> | ->]; lia.
Qed.

Lemma py_int_bound s z n :
  py_int s = Ok z -> (List.length s <= n)%nat -> Z.abs z < 16 ^ Z.of_nat n.
Proof.
  unfold py_int. intros H L.
  destruct (PyLong_FromString (TransformDecimalAndSpaceToASCII s)) as [z' |] eqn:E;
    [| discriminate].
  injection H as <-. apply PyLong_FromString_bound in E.
  pose proof (transform_length s) as T.
  assert (M : 16 ^ Z.of_nat (List.length (TransformDecimalAndSpaceToASCII s))
              <= 16 ^ Z.of_nat n) by (apply Z.pow_le_mono_r; lia).
  lia.
Qed.

Lemma slice_to_length h n : (List.length (slice_to h n) <= n)%nat.
Proof. apply firstn_le_length. Qed.

(** X2. Whatever the input, when the three parses succeed their values
    fit the byte counts the script prints them under: below [2^24],
    [2^32] and [2^64] in absolute value. *)
Theorem decode_fits_bytes h r :
  decode h = Ok r ->
  Z.abs (first3 r) < 2 ^ 24 /\ Z.abs (first4 r) < 2 ^ 32 /\
  Z.abs (first8 r) < 2 ^ 64.
Proof.
  intros Hd. apply decode_ok_inv in Hd. destruct Hd as (H8 & H4 & H3).
  repeat split.
  - exact (py_int_bound _ _ 6 H3 (slice_to_length h 6)).
  - exact (py_int_bound _ _ 8 H4 (slice_to_length h 8)).
  - exact (py_int_bound _ _ 16 H8 (slice_to_length h 16)).
Qed.

(** X3. On a string of at most 6 characters the three slices are the
    whole string, so the three values are one and the same number. *)
Theorem decode_short_all_equal h r :
  (List.length h <= 6)%nat -> decode h = Ok r ->
  first3 r = first4 r /\ first4 r = first8 r.
Proof.
  intros L Hd. apply decode_ok_inv in Hd. destruct Hd as (H8 & H4 & H3).
  unfold slice_to in *.
  rewrite (firstn_all2 (n := 16) h) in H8 by lia.
  rewrite (firstn_all2 (n := 8) h) in H4 by lia.
  rewrite (firstn_all2 (n := 6) h) in H3 by lia.
  split; congruence.
Qed.

(** *** Entries that standard output cannot encode *)

(** X9. An entry that parses but has a character standard output cannot
    encode ends the iteration at its first print with
    [UnicodeEncodeError]: nothing of its block is written. *)
Theorem loop_body_unencodable h r out :
  decode h = Ok r -> forallb can_encode h = false ->
  loop_body h out = (out, Raise (UnicodeEncodeError (lit "Hash: " ++ h))).
Proof.
  intros D H. rewrite loop_body_decode, D.
  apply print_block_unencodable, H.
Qed.

Lemma is_ascii_app a b : is_ascii (a ++ b) = is_ascii a && is_ascii b.
Proof. apply forallb_app. Qed.

Lemma string_of_uint_ascii d :
  is_ascii (lit (NilEmpty.string_of_uint d)) = true.
Proof. induction d; cbn [NilEmpty.string_of_uint]; auto. Qed.

(** The decimal text of a number is ASCII. *)
Lemma str_int_ascii z : is_ascii (str_int z) = true.
Proof.
  unfold str_int. destruct (Z.to_int z) as [d | d];
    cbn [NilZero.string_of_int].
  - destruct d; try reflexivity; apply (string_of_uint_ascii (_ d)).
  - change (lit (String "-" (NilZero.string_of_uint d)))
      with (45%N :: lit (NilZero.string_of_uint d)).
    cbn [is_ascii forallb]. change (45 <? 128)%N with true. cbn [andb].
    destruct d; try reflexivity; apply (string_of_uint_ascii (_ d)).
Qed.

Section AsciiStdout.

(** Standard output has at least the ASCII characters. *)
Hypothesis ascii_encodable : forall c, (c < 128)%N -> can_encode c = true.

Lemma is_ascii_encodable s : is_ascii s = true -> encodable s.
Proof.
  unfold is_ascii, encodable. rewrite !forallb_forall.
  intros H c Hc. apply ascii_encodable, N.ltb_lt, H, Hc.
Qed.

(** Of a block only the hash itself can fail to be encoded. *)
Lemma block_encodable h r :
  encodable h -> encodable (unlines (block h r)).
Proof.
  intros H. rewrite unlines_block.
  repeat (apply encodable_app; split);
    try exact H;
    try (apply is_ascii_encodable; first [reflexivity | apply str_int_ascii]).
Qed.

Lemma print_block_ascii h r out :
  print_block h r out =
  if forallb can_encode h then (out ++ unlines (block h r), Ok tt)
  else (out, Raise (UnicodeEncodeError (lit "Hash: " ++ h))).
Proof.
  destruct (forallb can_encode h) eqn:E.
  - apply print_block_encodable, block_encodable, E.
  - apply print_block_unencodable, E.
Qed.

(** X5. On every list, decodable or not, and with a standard output that
    has at least ASCII, what the driver has written is the complete
    blocks of an initial part of the list whose entries all decode, never
    part of a block.  It returns normally when that part is the whole
    list; otherwise it raises at the entry right after that part, either
    the parse error of that entry or, when the entry decodes,
    [UnicodeEncodeError] for its first line. *)
Theorem driver_writes_whole_blocks hs :
  forall out,
  exists pre rs,
    Forall2 (fun h r => decode h = Ok r) pre rs /\
    fst (driver hs out) = out ++ unlines (blocks pre rs) /\
    ((pre = hs /\ snd (driver hs out) = Ok tt) \/
     (exists bad post e,
         hs = pre ++ bad :: post /\ snd (driver hs out) = Raise e /\
         (decode bad = Raise e \/
          (exists r, decode bad = Ok r) /\
          e = UnicodeEncodeError (lit "Hash: " ++ bad)))).
Proof.
  induction hs as [| h hs IH]; intros out.
  - exists [], []. cbn. rewrite app_nil_r. auto.
  - rewrite driver_cons, loop_body_decode.
    destruct (decode h) as [r | e] eqn:D.
    + rewrite print_block_ascii. destruct (forallb can_encode h).
      * destruct (IH (out ++ unlines (block h r))) as (pre & rs & F & O & R).
        exists (h :: pre), (r :: rs). split; [constructor; assumption |].
        split.
        -- rewrite O. cbn [blocks]. rewrite unlines_app, app_assoc.
           reflexivity.
        -- destruct R as [[-> R] | (bad & post & e & -> & R & B)].
           ++ left. auto.
           ++ right. exists bad, post, e. auto.
      * exists [], []. split; [constructor |]. split.
        -- cbn. rewrite app_nil_r. reflexivity.
        -- right. exists h, hs, (UnicodeEncodeError (lit "Hash: " ++ h)).
           cbn [app snd]. split; [reflexivity |]. split; [reflexivity |].
           right. split; [exists r; exact D | reflexivity].
    + exists [], []. split; [constructor |]. split.
      * cbn. rewrite app_nil_r. reflexivity.
      * right. exists h, hs, e. auto.
Qed.

End AsciiStdout.

(** *** Letter case and low-order bytes *)

Lemma to_lower_hex c :
  is_hex_char c = true ->
  is_hex_char (to_lower c) = true /\
  spec_hex_digit (to_lower c) = spec_hex_digit c.
Proof. intros H. unfold to_lower. split; char_facts. Qed.

Lemma hex_string_to_lower s :
  hex_string s -> hex_string (List.map to_lower s).
Proof.
  induction s as [| c s IH]; [reflexivity |].
  intros H. apply hex_string_cons in H. destruct H as [Hc Hs].
  cbn [List.map]. apply hex_string_cons. split; [| auto].
  apply to_lower_hex, Hc.
Qed.

Lemma spec_hex_value_to_lower s :
  hex_string s -> spec_hex_value (List.map to_lower s) = spec_hex_value s.
Proof.
  induction s as [| c s IH] using rev_ind; [reflexivity |].
  intros H. apply hex_string_app in H. destruct H as [Hs Hc].
  apply hex_string_cons in Hc. destruct Hc as [Hc _].
  rewrite map_app. cbn [List.map]. rewrite !spec_hex_value_snoc, (IH Hs).
  rewrite (proj2 (to_lower_hex c Hc)). reflexivity.
Qed.

(** X7. The case of the hexadecimal letters does not matter: a string of
    hexadecimal digits and the same string in small letters decode
    alike. *)
Theorem decode_case_insensitive h :
  hex_string h -> decode (List.map to_lower h) = decode h.
Proof.
  intros H. destruct h as [| c h]; [reflexivity |].
  assert (F : forall n, slice_to (List.map to_lower (c :: h)) n
                        = List.map to_lower (slice_to (c :: h) n))
    by (intros n; apply firstn_map).
  rewrite (decode_hex (c :: h)) by (discriminate || apply hex_string_firstn, H).
  rewrite decode_hex.
  - unfold spec_decode. rewrite !F.
    rewrite !spec_hex_value_to_lower by apply hex_string_firstn, H.
    reflexivity.
  - discriminate.
  - rewrite F. apply hex_string_to_lower, hex_string_firstn, H.
Qed.

Lemma slice_to_split h a b :
  (a <= b)%nat -> slice_to h b = slice_to h a ++ slice_from_to h a b.
Proof.
  intros L. unfold slice_from_to.
  rewrite <- (slice_to_slice_to h a b L). unfold slice_to.
  symmetry. apply firstn_skipn.
Qed.

Lemma py_int_low_part h a b :
  hex_string h -> (a < b)%nat -> (b <= List.length h)%nat ->
  py_int (slice_from_to h a b)
  = Ok (spec_hex_value (slice_to h b)
        - spec_hex_value (slice_to h a) * 2 ^ (4 * Z.of_nat (b - a))).
Proof.
  intros H Lab Lb.
  assert (Hb : hex_string (slice_to h b)) by apply hex_string_firstn, H.
  rewrite (slice_to_split h a b) in Hb |- * by lia.
  apply hex_string_app in Hb. destruct Hb as [_ Ht].
  assert (Len : List.length (slice_from_to h a b) = (b - a)%nat).
  { unfold slice_from_to. rewrite length_skipn, firstn_length_le; lia. }
  rewrite spec_hex_value_app, Len, Z.pow_mul_r by lia.
  change (2 ^ 4) with 16.
  rewrite py_int_hex; [f_equal; lia | | exact Ht].
  intros E. rewrite E in Len. cbn in Len. lia.
Qed.

(** X8. For a string of hexadecimal digits of length at least 16, what
    the longer prefixes add to the shorter ones is the number the
    characters in between parse to: [first8 = first4 * 2^32 +
    int(h[8:16], 16)] and [first4 = first3 * 2^8 + int(h[6:8], 16)]. *)
Theorem decode_low_bytes h r :
  hex_string h -> (16 <= List.length h)%nat -> decode h = Ok r ->
  py_int (slice_from_to h 8 16) = Ok (first8 r - first4 r * 2 ^ 32) /\
  py_int (slice_from_to h 6 8) = Ok (first4 r - first3 r * 2 ^ 8).
Proof.
  intros H L Hd. rewrite decode_hex in Hd.
  - injection Hd as <-. unfold spec_decode. cbn [first3 first4 first8]. split.
    + exact (py_int_low_part h 8 16 H ltac:(lia) ltac:(lia)).
    + exact (py_int_low_part h 6 8 H ltac:(lia) ltac:(lia)).
  - destruct h; [cbn in L; lia | discriminate].
  - apply hex_string_firstn, H.
Qed.

End Properties.

(** * Concrete runs

    The runs below use the tables of Unicode 14.0, which are never
    consulted for ASCII input, and a standard output in UTF-8. *)

#[local] Existing Instance unicode14.
#[local] Existing Instance utf8_strict.


(** C2 at the second hash of the list: [1 = 258 >> 8] and
    [258 = 1108452819664 >> 32]. *)
Lemma decode_nesting_witness :
  let h := lit "0000010214efc2d0f09b4b0bce1f1f5af7df428471031886bff73119c45cdcbc" in
  let r := {| first3 := 1; first4 := 258; first8 := 1108452819664 |} in
  decode h = Ok r /\
  first3 r = Z.shiftr (first4 r) 8 /\ first4 r = Z.shiftr (first8 r) 32.
Proof.
  intros h r.
  assert (H : hex_string h) by reflexivity.
  assert (L : (16 <= List.length h)%nat) by (vm_compute; lia).
  assert (D : decode h = Ok r) by (vm_compute; reflexivity).
  exact (conj D (decode_nesting h r H L D)).
Defined.

(** C3 on the script's own list: what the script prints. *)
Lemma driver_prints_blocks_witness :
  main [] =
  (lit "Hash: 0000006c3a436500b20c0c80f5dae66e1233d84da4ddd5af2987cfdb1562eb9f
  First 3 bytes: 0
  First 4 bytes: 108
  First 8 bytes: 464833963264

Hash: 0000010214efc2d0f09b4b0bce1f1f5af7df428471031886bff73119c45cdcbc
  First 3 bytes: 1
  First 4 bytes: 258
  First 8 bytes: 1108452819664

Hash: 000002d7a7e5d7bb05b43c21aef385b934c61d3a7605c0829c35defb490a651c
  First 3 bytes: 2
  First 4 bytes: 727
  First 8 bytes: 3125258082235

", Ok tt).
Proof.
  assert (D : Forall2 (fun h r => decode h = Ok r) hashes
                [ {| first3 := 0; first4 := 108; first8 := 464833963264 |};
                  {| first3 := 1; first4 := 258; first8 := 1108452819664 |};
                  {| first3 := 2; first4 := 727; first8 := 3125258082235 |} ])
    by (repeat constructor; vm_compute; reflexivity).
  unfold main.
  rewrite (driver_prints_blocks _ _ D) by (vm_compute; reflexivity).
  vm_compute. reflexivity.
Defined.



(** C5 on a list whose second entry has a [g]: the first block is
    printed, the third entry is never reached. *)
Lemma driver_stops_at_first_failure_witness :
  driver [ lit "0000006c3a436500b20c"; lit "00000g14efc2d0f09b4b";
           lit "000002d7a7e5d7bb05b4" ] [] =
  (lit "Hash: 0000006c3a436500b20c
  First 3 bytes: 0
  First 4 bytes: 108
  First 8 bytes: 464833963264

", Raise (ValueError 16 (lit "00000g14efc2d0f0"))).
Proof.
  assert (D : Forall2 (fun h r => decode h = Ok r)
                [ lit "0000006c3a436500b20c" ]
                [ {| first3 := 0; first4 := 108; first8 := 464833963264 |} ])
    by (repeat constructor; vm_compute; reflexivity).
  assert (B : decode (lit "00000g14efc2d0f09b4b")
              = Raise (ValueError 16 (lit "00000g14efc2d0f0")))
    by (vm_compute; reflexivity).
  assert (E : encodable
                (unlines (blocks [ lit "0000006c3a436500b20c" ]
                            [ {| first3 := 0; first4 := 108;
                                 first8 := 464833963264 |} ])))
    by (vm_compute; reflexivity).
  exact (driver_stops_at_first_failure _ _ _ [ lit "000002d7a7e5d7bb05b4" ]
           _ D E B).
Defined.

(** C6 as stated fails at the empty string, which is a string of
    hexadecimal digits shorter than 16 characters. *)
Lemma decode_short_hex_counterexample :
  hex_string (lit "") /\ (List.length (lit "") < 16)%nat /\
  decode (lit "") = Raise (ValueError 16 (lit "")).
Proof. repeat split. vm_compute. lia. Qed.

(** C6, amended, on 15 digits: the 8-byte value is that of all 15. *)
Lemma decode_short_hex_witness :
  let h := lit "0000006c3a43650" in
  decode h = Ok {| first3 := 0; first4 := 108; first8 := 29052122704 |}
  /\ spec_hex_value h = 29052122704.
Proof.
  intros h. split; [| reflexivity].
  assert (N : h <> []) by discriminate.
  assert (H : hex_string h) by reflexivity.
  assert (L : (List.length h <= 16)%nat) by (vm_compute; lia).
  rewrite (decode_short_hex h N H L). vm_compute. reflexivity.
Defined.

(** C7 as stated fails: the 8-byte value is not 108000198740846336. *)
Lemma decode_first_fixture_counterexample :
  decode (lit "0000006c3a436500b20c0c80f5dae66e1233d84da4ddd5af2987cfdb1562eb9f")
  <> Ok {| first3 := 0; first4 := 108; first8 := 108000198740846336 |}.
Proof. vm_compute. discriminate. Qed.

(** C8 as stated fails: a leading minus sign is accepted and the values
    are negative. *)
Lemma decode_nonneg_counterexample :
  exists r,
    decode (lit "-1") = Ok r /\
    ~ (0 <= first3 r /\ 0 <= first4 r /\ 0 <= first8 r).
Proof.
  exists {| first3 := -1; first4 := -1; first8 := -1 |}.
  split; [reflexivity |]. cbn. lia.
Qed.

(** C8, amended, on a string with a plus sign. *)
Lemma decode_nonneg_witness :
  let r := {| first3 := 31; first4 := 31; first8 := 31 |} in
  decode (lit "+1f") = Ok r /\
  0 <= first3 r /\ 0 <= first4 r /\ 0 <= first8 r.
Proof.
  intros r.
  assert (D : decode (lit "+1f") = Ok r) by reflexivity.
  assert (M : ~ In chr_minus (slice_to (lit "+1f") 16))
    by (vm_compute; intuition discriminate).
  exact (conj D (decode_nonneg _ r D M)).
Defined.

(** C10 on three strings that fail at the first, the second and the
    third parse. *)
Lemma loop_body_no_partial_block_witness :
  loop_body (lit "_") [] = ([], Raise (ValueError 16 (lit "_")))
  /\ loop_body (lit "1234567_12345678") []
     = ([], Raise (ValueError 16 (lit "1234567_")))
  /\ loop_body (lit "       1") [] = ([], Raise (ValueError 16 (lit "      "))).
Proof.
  split; [| split].
  - apply (proj1 (loop_body_no_partial_block (lit "_") [])). reflexivity.
  - apply (proj1 (proj2 (loop_body_no_partial_block
                           (lit "1234567_12345678") []))
             81985527212168824);
      reflexivity.
  - apply (proj2 (proj2 (loop_body_no_partial_block (lit "       1") []))
             1 1);
      reflexivity.
Defined.

(** X1 on two strings that differ only after the 16th character. *)
Lemma decode_same_prefix_witness :
  decode (lit "0000006c3a436500b20c0c80")
  = decode (lit "0000006c3a436500ffffffffffff").
Proof. apply decode_same_prefix. reflexivity. Defined.

(** X2 on sixteen [f]s, the largest values there are. *)
Lemma decode_fits_bytes_witness :
  let r := {| first3 := 16777215; first4 := 4294967295;
              first8 := 18446744073709551615 |} in
  decode (lit "ffffffffffffffff") = Ok r /\
  Z.abs (first3 r) < 2 ^ 24 /\ Z.abs (first4 r) < 2 ^ 32 /\
  Z.abs (first8 r) < 2 ^ 64.
Proof.
  intros r.
  assert (D : decode (lit "ffffffffffffffff") = Ok r)
    by (vm_compute; reflexivity).
  exact (conj D (decode_fits_bytes _ r D)).
Defined.

(** X3 on a string of two characters. *)
Lemma decode_short_all_equal_witness :
  let r := {| first3 := 31; first4 := 31; first8 := 31 |} in
  decode (lit "1f") = Ok r /\ first3 r = first4 r /\ first4 r = first8 r.
Proof.
  intros r.
  assert (L : (List.length (lit "1f") <= 6)%nat) by (vm_compute; lia).
  assert (D : decode (lit "1f") = Ok r) by reflexivity.
  exact (conj D (decode_short_all_equal _ r L D)).
Defined.

(** X7 on a string with capital letters. *)
Lemma decode_case_insensitive_witness :
  decode (lit "abcdef0123456789abcd") = decode (lit "ABCDEF0123456789abCD").
Proof.
  assert (H : hex_string (lit "ABCDEF0123456789abCD")) by reflexivity.
  exact (decode_case_insensitive (lit "ABCDEF0123456789abCD") H).
Defined.

(** X8 on the first hash of the list: [int("3a436500", 16)] and
    [int("6c", 16)]. *)
Lemma decode_low_bytes_witness :
  py_int (lit "3a436500") = Ok 977495296 /\ py_int (lit "6c") = Ok 108.
Proof.
  pose (h := lit "0000006c3a436500b20c0c80f5dae66e1233d84da4ddd5af2987cfdb1562eb9f").
  assert (H : hex_string h) by reflexivity.
  assert (L : (16 <= List.length h)%nat) by (vm_compute; lia).
  assert (D : decode h
              = Ok {| first3 := 0; first4 := 108; first8 := 464833963264 |})
    by (vm_compute; reflexivity).
  exact (decode_low_bytes h _ H L D).
Defined.

(** X5 on a list whose second entry decodes but ends in a lone surrogate,
    which UTF-8 cannot encode: one block is written, the loop ends with
    [UnicodeEncodeError] and the third entry is never reached. *)
Lemma driver_writes_whole_blocks_witness :
  let h1 := lit "0000006c3a436500b20c" in
  let h2 := lit "0000000000000001" ++ [55296%N] in
  let h3 := lit "000002d7a7e5d7bb05b4" in
  driver [h1; h2; h3] [] =
  (lit "Hash: 0000006c3a436500b20c
  First 3 bytes: 0
  First 4 bytes: 108
  First 8 bytes: 464833963264

", Raise (UnicodeEncodeError (lit "Hash: " ++ h2)))
  /\ exists pre rs,
      Forall2 (fun h r => decode h = Ok r) pre rs /\
      fst (driver [h1; h2; h3] []) = [] ++ unlines (blocks pre rs) /\
      ((pre = [h1; h2; h3] /\ snd (driver [h1; h2; h3] []) = Ok tt) \/
       (exists bad post e,
           [h1; h2; h3] = pre ++ bad :: post /\
           snd (driver [h1; h2; h3] []) = Raise e /\
           (decode bad = Raise e \/
            (exists r, decode bad = Ok r) /\
            e = UnicodeEncodeError (lit "Hash: " ++ bad)))).
Proof.
  intros h1 h2 h3. split; [vm_compute; reflexivity |].
  apply driver_writes_whole_blocks.
  intros c Hc. unfold can_encode, utf8_strict.
  apply orb_true_iff. left. apply N.ltb_lt. lia.
Defined.

(** X9 on a hash followed by a lone surrogate. *)
Lemma loop_body_unencodable_witness :
  let h := lit "0000000000000001" ++ [55296%N] in
  loop_body h [] = ([], Raise (UnicodeEncodeError (lit "Hash: " ++ h))).
Proof.
  intros h.
  assert (D : decode h = Ok {| first3 := 0; first4 := 0; first8 := 1 |})
    by (vm_compute; reflexivity).
  assert (U : forallb can_encode h = false) by (vm_compute; reflexivity).
  exact (loop_body_unencodable h _ [] D U).
Defined.
